(** * The global-script example of [iife/foo.js]

    [iife/foo.js] is a classic (non-module) browser script made of two
    function declarations, [getUrl] and [createTodo].  This file embeds the
    script in Rocq: the two function bodies become functions of a small
    state-and-exception monad over the page's global bindings and the
    browser's request objects, and the script's top level becomes the list
    of its declarations together with the effect of loading it. *)

From stdpp Require Import gmap strings list.

Open Scope string_scope.
Open Scope list_scope.

(** ** Values *)

(** The function objects of the page: the two functions that [foo.js]
    declares, and an arrow function with a string-literal body, the shape of
    the [getUrl = () => '/oops'] re-assignment discussed in [DRAFT.md]. *)
Inductive func : Type :=
  | FgetUrl
  | FcreateTodo
  | FArrow (body : string).

(** The values of the model; each of them has a string conversion. *)
Inductive value : Type :=
  | VUndefined
  | VString (s : string)
  | VFunc (f : func)
  | VXhr (id : nat).

(** The exceptions that evaluating the script's code can raise. *)
Inductive error : Type :=
  | ReferenceError (name : string)
  | TypeError
  | RangeError
  | InvalidStateError.

Global Instance func_eq_dec : EqDecision func.
Proof. solve_decision. Defined.
Global Instance value_eq_dec : EqDecision value.
Proof. solve_decision. Defined.
Global Instance error_eq_dec : EqDecision error.
Proof. solve_decision. Defined.

(** ** The page state *)

(** An [XMLHttpRequest] object: the listeners registered on it, the
    arguments of its last [open], and whether [send] went through. *)
Record xhr : Type := Xhr {
  listeners : list (string * value);
  opened : option (string * string);
  sent : bool
}.

Definition fresh_xhr : xhr :=
  {| listeners := []; opened := None; sent := false |}.

(** [globals] are the bindings of the global scope (every classic script
    of the page shares them), [heap] holds the request objects in allocation
    order, and [network] logs the requests handed to the network as
    (method, url). *)
Record state : Type := State {
  globals : gmap string value;
  heap : list xhr;
  network : list (string * string)
}.

Definition initial : state :=
  {| globals := ∅; heap := []; network := [] |}.

Definition set_globals (g : gmap string value) (s : state) : state :=
  {| globals := g; heap := heap s; network := network s |}.

Definition set_heap (h : list xhr) (s : state) : state :=
  {| globals := globals s; heap := h; network := network s |}.

(** ** Completions and the evaluation monad *)

Inductive completion (A : Type) : Type :=
  | Normal (a : A)
  | Throw (e : error).
Arguments Normal {A} a.
Arguments Throw {A} e.

Definition M (A : Type) : Type := state → completion A * state.

Definition throw {A} (e : error) : M A := λ s, (Throw e, s).

Global Instance M_ret : MRet M := λ A a s, (Normal a, s).

(** Sequencing: an abrupt completion skips the rest, as no statement of the
    script catches exceptions. *)
Global Instance M_bind : MBind M := λ A B k m s,
  match m s with
  | (Normal a, s') => k a s'
  | (Throw e, s') => (Throw e, s')
  end.

(** ** The host: identifier resolution and [XMLHttpRequest] *)

(** Reading an identifier that no scope binds raises a [ReferenceError]. *)
Definition resolve (name : string) : M value :=
  λ s, match globals s !! name with
       | Some v => (Normal v, s)
       | None => (Throw (ReferenceError name), s)
       end.

(** [new XMLHttpRequest()]: the browser's constructor allocates a fresh
    request object. *)
Definition new_XMLHttpRequest : M value :=
  λ s, (Normal (VXhr (length (heap s))), set_heap (heap s ++ [fresh_xhr]) s).

(** Apply an update to the request object that [req] refers to; a method
    call on anything else is a [TypeError]. *)
Definition with_xhr (req : value) (f : xhr → state → completion unit * state)
  : M unit :=
  λ s, match req with
       | VXhr id =>
           match heap s !! id with
           | Some x => f x s
           | None => (Throw TypeError, s)
           end
       | _ => (Throw TypeError, s)
       end.

Definition store_xhr (req : value) (x : xhr) (s : state) : state :=
  match req with
  | VXhr id => set_heap (<[id := x]> (heap s)) s
  | _ => s
  end.

(** [req.addEventListener(type, callback)]: an object callback is appended
    to the listener list unless it is already registered for that type,
    [undefined] is ignored, a primitive string is rejected. *)
Definition addEventListener (req : value) (type : string) (callback : value)
  : M unit :=
  with_xhr req (λ x s,
    match callback with
    | VUndefined => (Normal (), s)
    | VString _ => (Throw TypeError, s)
    | VFunc _ | VXhr _ =>
        if decide ((type, callback) ∈ listeners x) then (Normal (), s)
        else
          (Normal (),
           store_xhr req {| listeners := listeners x ++ [(type, callback)];
                            opened := opened x;
                            sent := sent x |} s)
    end).

(** [req.open(method, url)], for a url that resolves against the address of
    the page, as every url made of a path and a query does; a url that does
    not resolve is outside this model. *)
Definition open (req : value) (method url : string) : M unit :=
  with_xhr req (λ x s,
    (Normal (),
     store_xhr req {| listeners := listeners x;
                      opened := Some (method, url);
                      sent := false |} s)).

(** [req.send()]: only an opened, not yet sent request goes out. *)
Definition send (req : value) : M unit :=
  with_xhr req (λ x s,
    match opened x, sent x with
    | Some r, false =>
        (Normal (),
         let s' := store_xhr req {| listeners := listeners x;
                                    opened := opened x;
                                    sent := true |} s in
         {| globals := globals s'; heap := heap s';
            network := network s' ++ [r] |})
    | _, _ => (Throw InvalidStateError, s)
    end).

(** ** String conversion *)

Definition quote : string := String (Ascii.ascii_of_nat 34) EmptyString.
Definition nl : string := String (Ascii.ascii_of_nat 10) EmptyString.

(** The source text of a function, which is what converting it to a string
    yields. *)
Definition source (f : func) : string :=
  match f with
  | FgetUrl =>
      "function getUrl () {" +:+ nl +:+
      "  return " +:+ quote +:+ "/todos" +:+ quote +:+ ";" +:+ nl +:+
      "}"
  | FcreateTodo =>
      "function createTodo(title) {" +:+ nl +:+
      "  const req = new XMLHttpRequest();" +:+ nl +:+
      "  req.addEventListener(" +:+ quote +:+ "load" +:+ quote
        +:+ ", reqListener);" +:+ nl +:+
      "  req.open(" +:+ quote +:+ "POST" +:+ quote +:+ ", getUrl() + "
        +:+ quote +:+ "?title=" +:+ quote +:+ " + title);" +:+ nl +:+
      "  req.send();" +:+ nl +:+
      "}"
  | FArrow body => "() => '" +:+ body +:+ "'"
  end.

Definition to_string (v : value) : string :=
  match v with
  | VUndefined => "undefined"
  | VString s => s
  | VFunc f => source f
  | VXhr _ => "[object XMLHttpRequest]"
  end.

(** ** The two functions of [foo.js] *)

(** [function getUrl () { return "/todos"; }] *)
Definition getUrl : M value := mret (VString "/todos").

(** Calling a value: only function objects are callable. *)
Definition invoke (callee : func → list value → M value)
    (v : value) (args : list value) : M value :=
  match v with
  | VFunc f => callee f args
  | _ => throw TypeError
  end.

(** [function createTodo(title) { ... }].  [callee] runs a function object
    one frame further down the call stack.  Both [+] of the url have a
    string operand, so both are concatenations of the operands' string
    conversions. *)
Definition createTodo (callee : func → list value → M value)
    (title : value) : M value :=
  req ← new_XMLHttpRequest;
  reqListener ← resolve "reqListener";
  addEventListener req "load" reqListener;;
  f ← resolve "getUrl";
  base ← invoke callee f [];
  open req "POST" (to_string base +:+ "?title=" +:+ to_string title);;
  send req;;
  mret VUndefined.

(** Calling a function object with [depth] frames left on the call stack;
    an exhausted stack raises a [RangeError].  Missing arguments are
    [undefined], surplus ones are ignored. *)
Fixpoint call (depth : nat) (f : func) (args : list value) : M value :=
  match depth with
  | 0 => throw RangeError
  | S d =>
      match f with
      | FgetUrl => getUrl
      | FcreateTodo => createTodo (call d) (nth 0 args VUndefined)
      | FArrow body => mret (VString body)
      end
  end.

(** The call expression [getUrl()] as [createTodo] evaluates it. *)
Definition getUrl_call (depth : nat) : M value :=
  f ← resolve "getUrl";
  invoke (call depth) f [].

(** A run of [createTodo] calls, one per title, each at the top of a stack
    of [depth] frames; a call that throws does not stop the later ones (each
    is its own event-handler turn). *)
Definition createTodo_each (depth : nat) (titles : list value) (s : state)
  : state :=
  foldl (λ st title, (call depth FcreateTodo [title] st).2) s titles.

(** ** The top level of a script *)

(** The statements a classic script of [DRAFT.md] has at its top level: a
    function declaration, a [var] with an initial value, and an immediately
    invoked function expression around further statements. *)
#[warnings="-register-all"]
Inductive item : Type :=
  | FunctionDeclaration (name : string) (f : func)
  | VarDeclaration (name : string) (init : value)
  | IIFE (body : list item).

(** [iife/foo.js], lines 1 to 11. *)
Definition foo_js : list item :=
  [ FunctionDeclaration "getUrl" FgetUrl;
    FunctionDeclaration "createTodo" FcreateTodo ].

(** A top-level declaration binds its name in the global scope; what is
    declared inside an IIFE is local to the function and binds nothing
    there. *)
Definition declare (g : gmap string value) (i : item) : gmap string value :=
  match i with
  | FunctionDeclaration name f => <[name := VFunc f]> g
  | VarDeclaration name init => <[name := init]> g
  | IIFE _ => g
  end.

Definition load (script : list item) (s : state) : state :=
  set_globals (foldl declare (globals s) script) s.

(** Every name a script declares, at any nesting. *)
Fixpoint names (i : item) : list string :=
  match i with
  | FunctionDeclaration name _ => [name]
  | VarDeclaration name _ => [name]
  | IIFE body =>
      (fix go (l : list item) : list string :=
         match l with
         | [] => []
         | j :: l' => names j ++ go l'
         end) body
  end.

Definition declared (script : list item) : list string :=
  concat (map names script).

(** The names that loading a script binds in the global scope. *)
Definition global_names (script : list item) : list string :=
  concat (map (λ i, match i with IIFE _ => [] | _ => names i end) script).

Definition is_function_declaration (i : item) : bool :=
  match i with FunctionDeclaration _ _ => true | _ => false end.

Definition is_iife (i : item) : bool :=
  match i with IIFE _ => true | _ => false end.

(** A script follows the IIFE pattern when all of its top level is inside
    immediately invoked function expressions. *)
Definition wrapped_in_iife (script : list item) : bool :=
  forallb is_iife script.

(** The page right after the browser loaded [foo.js] and nothing else. *)
Definition page : state := load foo_js initial.

(** ** The first version of the script, in [DRAFT.md] *)

(** An assignment [name = v] in a classic script, such as
    [getUrl = () => '/oops']: it binds or re-binds the global [name] and
    evaluates to the assigned value. *)
Definition assign (name : string) (v : value) : M value :=
  λ s, (Normal v, set_globals (<[name := v]> (globals s)) s).

Module Draft.

(** [var url = "/todos";] *)
Definition url_declaration : list item :=
  [ VarDeclaration "url" (VString "/todos") ].

(** The first [function createTodo(title) { ... }] of [DRAFT.md], which
    reads the global variable [url] where [foo.js] calls [getUrl()]. *)
Definition createTodo (title : value) : M value :=
  req ← new_XMLHttpRequest;
  reqListener ← resolve "reqListener";
  addEventListener req "load" reqListener;;
  url ← resolve "url";
  open req "POST" (to_string url +:+ "?title=" +:+ to_string title);;
  send req;;
  mret VUndefined.

End Draft.

(** The request that [createTodo] logs for a title. *)
Definition todo_request (title : value) : string * string :=
  ("POST", "/todos?title=" +:+ to_string title).

(** A url of the form [/name], with [name] made of letters and digits:
    such a url, whatever query follows it, resolves against the address of
    every page served over http. *)
Definition alphanumeric (c : Ascii.ascii) : bool :=
  let n := Ascii.nat_of_ascii c in
  (Nat.leb 48 n && Nat.leb n 57) || (Nat.leb 65 n && Nat.leb n 90)
  || (Nat.leb 97 n && Nat.leb n 122).

Fixpoint all_alphanumeric (s : string) : bool :=
  match s with
  | EmptyString => true
  | String c rest => alphanumeric c && all_alphanumeric rest
  end.

Definition plain_path (url : string) : bool :=
  match url with
  | String c rest =>
      Nat.eqb (Ascii.nat_of_ascii c) 47 && all_alphanumeric rest
  | EmptyString => false
  end.

(** ** Pages and properties of a run *)


(** A page on which a second script has [var reqListener = () => 'done']. *)
Definition page_with_listener : state :=
  load [VarDeclaration "reqListener" (VFunc (FArrow "done"))] page.

(** The page above after the re-assignment [getUrl = () => '/oops'] of
    [DRAFT.md]. *)
Definition page_reassigned : state :=
  set_globals (<["getUrl" := VFunc (FArrow "/oops")]>
                 (globals page_with_listener)) page_with_listener.

(** [createTodo(title)] opens its request with method ["POST"] and the url
    ["/todos?title="] followed by the title. *)
Definition opens_todos (depth : nat) (s : state) (title : string) : Prop :=
  ∃ req, heap (call depth FcreateTodo [VString title] s).2 !! length (heap s)
         = Some req
         ∧ opened req = Some ("POST", "/todos?title=" +:+ title).

(** The request object of a call once its [addEventListener] statement is
    over. *)
Definition listening (callback : value) : xhr :=
  match callback with
  | VFunc _ | VXhr _ =>
      {| listeners := [("load", callback)]; opened := None; sent := false |}
  | _ => fresh_xhr
  end.

(** A computation [keeps] the page when it writes no global binding and
    leaves every request object that existed before as it was. *)
Definition keeps {A} (m : M A) : Prop :=
  ∀ s, globals (m s).2 = globals s ∧ heap s `prefix_of` heap (m s).2.

(** ** Sample runs *)

Example page_getUrl : globals page !! "getUrl" = Some (VFunc FgetUrl).
Proof. reflexivity. Qed.

Example run_getUrl : (call 1 FgetUrl [] page).1 = Normal (VString "/todos").
Proof. reflexivity. Qed.

Example run_createTodo :
  (call 2 FcreateTodo [VString "milk"] page).1
  = Throw (ReferenceError "reqListener").
Proof. vm_compute. reflexivity. Qed.

Example run_with_listener :
  call 2 FcreateTodo [VString "milk"] page_with_listener
  = (Normal VUndefined,
     {| globals := globals page_with_listener;
        heap := [ {| listeners := [("load", VFunc (FArrow "done"))];
                     opened := Some ("POST", "/todos?title=milk");
                     sent := true |} ];
        network := [("POST", "/todos?title=milk")] |}).
Proof. by vm_compute. Qed.

Example run_reassigned :
  network (call 2 FcreateTodo [VString "milk"] page_reassigned).2
  = [("POST", "/oops?title=milk")].
Proof. by vm_compute. Qed.

(** ** Sequencing lemmas *)

Lemma bind_normal {A B} (m : M A) (k : A → M B) s a s' :
  m s = (Normal a, s') → (m ≫= k) s = k a s'.
Proof. intros H. unfold mbind, M_bind. by rewrite H. Qed.

Lemma bind_throw {A B} (m : M A) (k : A → M B) s e s' :
  m s = (Throw e, s') → (m ≫= k) s = (Throw e, s').
Proof. intros H. unfold mbind, M_bind. by rewrite H. Qed.

Lemma resolve_bound name v s :
  globals s !! name = Some v → resolve name s = (Normal v, s).
Proof. intros H. unfold resolve. by rewrite H. Qed.

Lemma resolve_unbound name s :
  globals s !! name = None → resolve name s = (Throw (ReferenceError name), s).
Proof. intros H. unfold resolve. by rewrite H. Qed.

(** ** Request objects *)

Lemma lookup_last (h : list xhr) (x : xhr) : (h ++ [x]) !! length h = Some x.
Proof. by rewrite list_lookup_middle. Qed.

Lemma insert_last (h : list xhr) (x y : xhr) :
  <[length h := y]> (h ++ [x]) = h ++ [y].
Proof.
  rewrite insert_app_r_alt by lia. by rewrite Nat.sub_diag.
Qed.

Lemma addEventListener_object id type callback x s :
  heap s !! id = Some x →
  (∃ f, callback = VFunc f) ∨ (∃ o, callback = VXhr o) →
  (type, callback) ∉ listeners x →
  addEventListener (VXhr id) type callback s
  = (Normal (),
     set_heap (<[id := {| listeners := listeners x ++ [(type, callback)];
                          opened := opened x;
                          sent := sent x |}]> (heap s)) s).
Proof.
  intros Hx Hc Hnew. unfold addEventListener, with_xhr. rewrite Hx.
  destruct Hc as [[f ->]|[o ->]]; by rewrite decide_False.
Qed.

Lemma open_valid id method url x s :
  heap s !! id = Some x →
  open (VXhr id) method url s
  = (Normal (),
     set_heap (<[id := {| listeners := listeners x;
                          opened := Some (method, url);
                          sent := false |}]> (heap s)) s).
Proof. intros Hx. unfold open, with_xhr. by rewrite Hx. Qed.

Lemma send_opened id r x s :
  heap s !! id = Some x → opened x = Some r → sent x = false →
  send (VXhr id) s
  = (Normal (),
     {| globals := globals s;
        heap := <[id := {| listeners := listeners x;
                           opened := Some r;
                           sent := true |}]> (heap s);
        network := network s ++ [r] |}).
Proof.
  intros Hx Ho Hs. unfold send, with_xhr. rewrite Hx, Ho, Hs. done.
Qed.

(** The tail of [createTodo], [req.open(...); req.send();], goes through on
    every live request object, whatever happened to it before. *)
Lemma open_send id method url x s :
  heap s !! id = Some x →
  (open (VXhr id) method url;; send (VXhr id);; mret VUndefined) s
  = (Normal VUndefined,
     {| globals := globals s;
        heap := <[id := {| listeners := listeners x;
                           opened := Some (method, url);
                           sent := true |}]> (heap s);
        network := network s ++ [(method, url)] |}).
Proof.
  intros Hx.
  erewrite bind_normal by (by apply open_valid).
  erewrite bind_normal.
  2:{ eapply send_opened.
      - simpl. apply list_lookup_insert_eq. by eapply lookup_lt_Some.
      - reflexivity.
      - reflexivity. }
  simpl. by rewrite list_insert_insert_eq.
Qed.

(** ** One call of [createTodo], step by step *)

Lemma createTodo_unfold callee title s :
  createTodo callee title s =
  match globals s !! "reqListener" with
  | None =>
      (Throw (ReferenceError "reqListener"),
       set_heap (heap s ++ [fresh_xhr]) s)
  | Some (VString _) => (Throw TypeError, set_heap (heap s ++ [fresh_xhr]) s)
  | Some l =>
      let s1 := set_heap (heap s ++ [listening l]) s in
      match globals s !! "getUrl" with
      | None => (Throw (ReferenceError "getUrl"), s1)
      | Some f =>
          match invoke callee f [] s1 with
          | (Normal base, s2) =>
              (open (VXhr (length (heap s))) "POST"
                 (to_string base +:+ "?title=" +:+ to_string title);;
               send (VXhr (length (heap s)));;
               mret VUndefined) s2
          | (Throw e, s2) => (Throw e, s2)
          end
      end
  end.
Proof.
  unfold createTodo.
  erewrite bind_normal by reflexivity.
  destruct (globals s !! "reqListener") as [l|] eqn:Hl.
  2:{ erewrite bind_throw; [reflexivity|]. by apply resolve_unbound. }
  erewrite bind_normal by (by apply resolve_bound).
  assert (Hfresh : heap (set_heap (heap s ++ [fresh_xhr]) s)
                     !! length (heap s) = Some fresh_xhr)
    by apply lookup_last.
  assert (Hrest : ∀ s1 : state, globals s1 = globals s →
    (f ← resolve "getUrl";
     base ← invoke callee f [];
     open (VXhr (length (heap s))) "POST"
       (to_string base +:+ "?title=" +:+ to_string title);;
     send (VXhr (length (heap s)));;
     mret VUndefined) s1
    = match globals s !! "getUrl" with
      | None => (Throw (ReferenceError "getUrl"), s1)
      | Some f =>
          match invoke callee f [] s1 with
          | (Normal base, s2) =>
              (open (VXhr (length (heap s))) "POST"
                 (to_string base +:+ "?title=" +:+ to_string title);;
               send (VXhr (length (heap s)));;
               mret VUndefined) s2
          | (Throw e, s2) => (Throw e, s2)
          end
      end).
  { intros s1 Hg. rewrite <- Hg.
    destruct (globals s1 !! "getUrl") as [f|] eqn:Hf.
    - erewrite bind_normal by (by apply resolve_bound).
      destruct (invoke callee f [] s1) as [[base|e] s2] eqn:Hi.
      + by erewrite bind_normal by exact Hi.
      + by erewrite bind_throw by exact Hi.
    - erewrite bind_throw; [reflexivity|]. by apply resolve_unbound. }
  destruct l as [|str|g|o].
  - erewrite bind_normal.
    2:{ unfold addEventListener, with_xhr. by rewrite Hfresh. }
    by rewrite Hrest.
  - erewrite bind_throw; [reflexivity|].
    unfold addEventListener, with_xhr. by rewrite Hfresh.
  - erewrite bind_normal.
    2:{ eapply addEventListener_object;
          [exact Hfresh|left; by eexists|apply not_elem_of_nil]. }
    unfold set_heap at 1 3. simpl heap. rewrite insert_last.
    by rewrite Hrest.
  - erewrite bind_normal.
    2:{ eapply addEventListener_object;
          [exact Hfresh|right; by eexists|apply not_elem_of_nil]. }
    unfold set_heap at 1 3. simpl heap. rewrite insert_last.
    by rewrite Hrest.
Qed.

(** ** What a call leaves alone *)

Lemma prefix_snoc_lookup (h h' : list xhr) (y : xhr) :
  h ++ [y] `prefix_of` h' → h' !! length h = Some y.
Proof.
  intros [k ->]. rewrite lookup_app_l by (rewrite length_app; simpl; lia).
  apply lookup_last.
Qed.

Lemma prefix_snoc_insert (h h' : list xhr) (y x : xhr) :
  h ++ [y] `prefix_of` h' → h `prefix_of` <[length h := x]> h'.
Proof.
  intros [k ->]. rewrite insert_app_l by (rewrite length_app; simpl; lia).
  rewrite insert_last. exists ([x] ++ k). by rewrite <- app_assoc.
Qed.

Lemma prefix_snoc_weaken (h h' : list xhr) (y : xhr) :
  h ++ [y] `prefix_of` h' → h `prefix_of` h'.
Proof. intros H. etrans; [|exact H]. by apply prefix_app_r. Qed.

Lemma invoke_keeps callee v args :
  (∀ f a, keeps (callee f a)) → keeps (invoke callee v args).
Proof.
  intros H. destruct v as [|str|f|o]; simpl;
    [by intros ?|by intros ?|apply H|by intros ?].
Qed.

Lemma createTodo_keeps callee title :
  (∀ f a, keeps (callee f a)) → keeps (createTodo callee title).
Proof.
  intros Hc s. rewrite createTodo_unfold.
  assert (Hsnoc : ∀ y, heap s `prefix_of` heap s ++ [y])
    by (intros y; by apply prefix_app_r).
  destruct (globals s !! "reqListener") as [l|]; [|by split; [|apply Hsnoc]].
  assert (Hgo : ∀ y,
    let s1 := set_heap (heap s ++ [y]) s in
    let r := match globals s !! "getUrl" with
      | None => (Throw (ReferenceError "getUrl"), s1)
      | Some f =>
          match invoke callee f [] s1 with
          | (Normal base, s2) =>
              (open (VXhr (length (heap s))) "POST"
                 (to_string base +:+ "?title=" +:+ to_string title);;
               send (VXhr (length (heap s)));;
               mret VUndefined) s2
          | (Throw e, s2) => (Throw e, s2)
          end
      end in
    globals r.2 = globals s ∧ heap s `prefix_of` heap r.2).
  { intros y s1 r. subst r.
    destruct (globals s !! "getUrl") as [f|]; [|by split; [|apply Hsnoc]].
    destruct (invoke_keeps callee f [] Hc s1) as [Hg Hh].
    destruct (invoke callee f [] s1) as [[base|e] s2]; simpl in Hg, Hh.
    - erewrite open_send by (by eapply prefix_snoc_lookup). simpl.
      split; [done|]. by eapply prefix_snoc_insert.
    - simpl. split; [done|]. by eapply prefix_snoc_weaken. }
  destruct l; try apply Hgo. by split; [|apply Hsnoc].
Qed.

Lemma call_keeps depth f args : keeps (call depth f args).
Proof.
  revert f args. induction depth as [|d IH]; intros f args; [done|].
  destruct f; simpl; try done. by apply createTodo_keeps.
Qed.

Lemma call_globals depth f args s :
  globals (call depth f args s).2 = globals s.
Proof. apply call_keeps. Qed.

Lemma createTodo_each_keeps depth titles s :
  globals (createTodo_each depth titles s) = globals s
  ∧ heap s `prefix_of` heap (createTodo_each depth titles s).
Proof.
  revert s. induction titles as [|t ts IH]; intros s; [done|].
  simpl. destruct (IH (call depth FcreateTodo [t] s).2) as [Hg Hh].
  destruct (call_keeps depth FcreateTodo [t] s) as [Hg' Hh'].
  split; [congruence|]. by etrans.
Qed.

(** How a call completes is decided by the global bindings alone. *)
Lemma call_completion depth f args s1 s2 :
  globals s1 = globals s2 →
  (call depth f args s1).1 = (call depth f args s2).1.
Proof.
  revert f args s1 s2.
  induction depth as [|d IH]; intros f args s1 s2 Hg; [done|].
  destruct f; simpl; try done.
  rewrite !createTodo_unfold, <- Hg.
  destruct (globals s1 !! "reqListener") as [l|]; [|done].
  assert (Hgo : ∀ y1 y2 title,
    (match globals s1 !! "getUrl" with
     | None => (Throw (ReferenceError "getUrl"),
                set_heap (heap s1 ++ [y1]) s1)
     | Some f =>
         match invoke (call d) f [] (set_heap (heap s1 ++ [y1]) s1) with
         | (Normal base, s') =>
             (open (VXhr (length (heap s1))) "POST"
                (to_string base +:+ "?title=" +:+ to_string title);;
              send (VXhr (length (heap s1)));;
              mret VUndefined) s'
         | (Throw e, s') => (Throw e, s')
         end
     end).1
    = (match globals s1 !! "getUrl" with
       | None => (Throw (ReferenceError "getUrl"),
                  set_heap (heap s2 ++ [y2]) s2)
       | Some f =>
           match invoke (call d) f [] (set_heap (heap s2 ++ [y2]) s2) with
           | (Normal base, s') =>
               (open (VXhr (length (heap s2))) "POST"
                  (to_string base +:+ "?title=" +:+ to_string title);;
                send (VXhr (length (heap s2)));;
                mret VUndefined) s'
           | (Throw e, s') => (Throw e, s')
           end
       end).1).
  { intros y1 y2 title.
    destruct (globals s1 !! "getUrl") as [f|]; [|done].
    set (t1 := set_heap (heap s1 ++ [y1]) s1).
    set (t2 := set_heap (heap s2 ++ [y2]) s2).
    assert (Hi : (invoke (call d) f [] t1).1 = (invoke (call d) f [] t2).1).
    { destruct f; simpl; try done. by apply IH. }
    destruct (invoke_keeps (call d) f [] (call_keeps d) t1) as [_ Hh1].
    destruct (invoke_keeps (call d) f [] (call_keeps d) t2) as [_ Hh2].
    destruct (invoke (call d) f [] t1) as [[b1|e1] u1];
      destruct (invoke (call d) f [] t2) as [[b2|e2] u2];
      simpl in Hi, Hh1, Hh2; try done.
    erewrite !open_send by (by eapply prefix_snoc_lookup). done. }
  destruct l; try apply Hgo. done.
Qed.

(** ** A call that goes through *)

(** With [getUrl] re-bound to [createTodo] itself the calls nest until the
    stack is exhausted: such a call never returns. *)
Lemma createTodo_loops depth args s :
  globals s !! "getUrl" = Some (VFunc FcreateTodo) →
  ∃ e, (call depth FcreateTodo args s).1 = Throw e.
Proof.
  revert args s. induction depth as [|d IH]; intros args s Hg; [by eexists|].
  simpl. rewrite createTodo_unfold, Hg.
  destruct (globals s !! "reqListener") as [l|]; [|by eexists].
  assert (Hgo : ∀ y title, ∃ e,
    (match invoke (call d) (VFunc FcreateTodo) []
             (set_heap (heap s ++ [y]) s) with
     | (Normal base, s') =>
         (open (VXhr (length (heap s))) "POST"
            (to_string base +:+ "?title=" +:+ to_string title);;
          send (VXhr (length (heap s)));;
          mret VUndefined) s'
     | (Throw e, s') => (Throw e, s')
     end).1 = Throw e).
  { intros y title. simpl.
    destruct (IH [] (set_heap (heap s ++ [y]) s) Hg) as [e He].
    destruct (call d FcreateTodo [] (set_heap (heap s ++ [y]) s))
      as [[b|e'] u]; simpl in He; [done|]. by eexists. }
  destruct l; try apply Hgo. by eexists.
Qed.

(** When the call [getUrl()] returns, it returns without touching the page,
    from every page with the same global bindings. *)
Lemma getUrl_call_returns depth s base :
  (getUrl_call depth s).1 = Normal base →
  ∃ g, globals s !! "getUrl" = Some (VFunc g)
       ∧ ∀ t, call depth g [] t = (Normal base, t).
Proof.
  unfold getUrl_call. intros H.
  destruct (globals s !! "getUrl") as [f|] eqn:Hf.
  2:{ erewrite bind_throw in H by (by apply resolve_unbound). done. }
  erewrite bind_normal in H by (by apply resolve_bound).
  destruct f as [|str|g|o]; try done. simpl in H.
  exists g. split; [done|].
  destruct depth as [|d]; [done|].
  destruct g as [| |body]; simpl in *.
  - intros t. unfold getUrl in *. simpl in H. by inversion H.
  - destruct (createTodo_loops (S d) [] s Hf) as [e He].
    simpl in He. congruence.
  - intros t. simpl in H. by inversion H.
Qed.

Lemma createTodo_runs depth title s l base :
  globals s !! "reqListener" = Some (VFunc l) →
  (getUrl_call depth s).1 = Normal base →
  call (S depth) FcreateTodo [title] s
  = (Normal VUndefined,
     let url := to_string base +:+ "?title=" +:+ to_string title in
     {| globals := globals s;
        heap := heap s ++ [ {| listeners := [("load", VFunc l)];
                               opened := Some ("POST", url);
                               sent := true |} ];
        network := network s ++ [("POST", url)] |}).
Proof.
  intros Hl Hb.
  destruct (getUrl_call_returns _ _ _ Hb) as (g & Hg & Hcall).
  simpl. rewrite createTodo_unfold, Hl, Hg. simpl. rewrite Hcall.
  erewrite open_send by apply lookup_last.
  simpl. by rewrite insert_last.
Qed.

(** The request object of a call sits right behind the objects that were
    there before, whether the call returns or throws, and no later frame
    registers anything on it. *)
Lemma createTodo_request_object depth title s :
  ∃ req, heap (createTodo (call depth) title s).2 !! length (heap s) = Some req
         ∧ (listeners req = []
            ∨ ∃ l, globals s !! "reqListener" = Some l
                   ∧ listeners req = [("load", l)]).
Proof.
  rewrite createTodo_unfold.
  destruct (globals s !! "reqListener") as [l|] eqn:Hl.
  2:{ exists fresh_xhr. split; [apply lookup_last|by left]. }
  assert (Hgo : ∀ y, (listeners y = [] ∨ listeners y = [("load", l)]) →
    let r := match globals s !! "getUrl" with
      | None => (Throw (ReferenceError "getUrl"), set_heap (heap s ++ [y]) s)
      | Some f =>
          match invoke (call depth) f [] (set_heap (heap s ++ [y]) s) with
          | (Normal base, s2) =>
              (open (VXhr (length (heap s))) "POST"
                 (to_string base +:+ "?title=" +:+ to_string title);;
               send (VXhr (length (heap s)));;
               mret VUndefined) s2
          | (Throw e, s2) => (Throw e, s2)
          end
      end in
    ∃ req, heap r.2 !! length (heap s) = Some req
           ∧ (listeners req = []
              ∨ ∃ l', Some l = Some l' ∧ listeners req = [("load", l')])).
  { intros y Hy r. subst r.
    assert (Hy' : listeners y = []
                  ∨ ∃ l', Some l = Some l' ∧ listeners y = [("load", l')])
      by (destruct Hy; [by left|right; by exists l]).
    destruct (globals s !! "getUrl") as [f|].
    2:{ exists y. split; [apply lookup_last|done]. }
    set (s1 := set_heap (heap s ++ [y]) s).
    destruct (invoke_keeps (call depth) f [] (call_keeps depth) s1)
      as [_ Hp].
    destruct (invoke (call depth) f [] s1) as [[b|e] s2]; simpl in Hp.
    - pose proof (prefix_snoc_lookup _ _ _ Hp) as Hx.
      erewrite open_send by exact Hx. simpl.
      eexists. split.
      + apply list_lookup_insert_eq. by eapply lookup_lt_Some.
      + exact Hy'.
    - exists y. split; [by eapply prefix_snoc_lookup|done]. }
  destruct l as [|str|g|o].
  - apply Hgo. by left.
  - exists fresh_xhr. split; [apply lookup_last|by left].
  - apply Hgo. by right.
  - apply Hgo. by right.
Qed.


(** ** The top level of [foo.js] *)

(** Had the two declarations been wrapped in an IIFE, loading the script
    would have bound nothing in the global scope. *)
Lemma load_wrapped body s : load [IIFE body] s = s.
Proof. by destruct s. Qed.

(** C1, as the claim states it, fails: [foo.js] is not wrapped in an
    immediately invoked function expression, and the names it declares are
    bound in the global scope once the script is loaded. *)
Lemma foo_js_iife_counterexample :
  ¬ (wrapped_in_iife foo_js = true)
  ∧ ¬ (∀ name, name ∈ declared foo_js →
               globals (load foo_js initial) !! name = None).
Proof.
  split; [discriminate|]. intros H.
  specialize (H "getUrl" ltac:(by left)). vm_compute in H. discriminate H.
Qed.

(** C1, amended: [foo.js] is the plain global script that the IIFE pattern
    is later set against.  Its two function declarations stand at the top
    level, outside any IIFE, so both names it declares, [getUrl] and
    [createTodo], are global bindings of every page that loads it. *)
Theorem foo_js_global_script :
  wrapped_in_iife foo_js = false
  ∧ global_names foo_js = declared foo_js
  ∧ ∀ s, globals (load foo_js s) !! "getUrl" = Some (VFunc FgetUrl)
         ∧ globals (load foo_js s) !! "createTodo" = Some (VFunc FcreateTodo).
Proof.
  split; [done|]. split; [done|]. intros s. simpl. split.
  - rewrite lookup_insert_ne by done. apply lookup_insert_eq.
  - apply lookup_insert_eq.
Qed.

(** C2: the code of the program is exactly two functions, named [getUrl]
    and [createTodo].  The script declares these two names and no other,
    each by a function declaration (no variable, hence no state), and
    loading it does nothing but bind the two names. *)
Theorem foo_js_two_functions :
  declared foo_js = ["getUrl"; "createTodo"]
  ∧ length foo_js = 2
  ∧ forallb is_function_declaration foo_js = true
  ∧ ∀ s, load foo_js s
         = set_globals (<["createTodo" := VFunc FcreateTodo]>
                          (<["getUrl" := VFunc FgetUrl]> (globals s))) s.
Proof. by repeat split. Qed.

(** ** [getUrl] *)

(** C5: [getUrl] ignores whatever arguments it is called with, returns the
    string ["/todos"] on every call and leaves the page as it found it; two
    runs from any two states return the same value. *)
Theorem getUrl_pure :
  (∀ s, getUrl s = (Normal (VString "/todos"), s))
  ∧ (∀ depth args s,
       call (S depth) FgetUrl args s = (Normal (VString "/todos"), s))
  ∧ (∀ s1 s2, (getUrl s1).1 = (getUrl s2).1).
Proof. by repeat split. Qed.

(** ** State *)

(** C4: the program holds no mutable state of its own.  [getUrl] leaves the
    page untouched; any sequence of [createTodo] calls, whether they return
    or throw, writes no global binding and changes no request object that
    existed before; so the call [getUrl()] completes afterwards exactly as
    it did before, and two calls of [getUrl] are interchangeable. *)
Theorem no_state_of_its_own :
  ∀ depth titles s,
    let s' := createTodo_each depth titles s in
    globals s' = globals s
    ∧ heap s `prefix_of` heap s'
    ∧ (∀ d, (getUrl_call d s').1 = (getUrl_call d s).1)
    ∧ (∀ d args, call d FgetUrl args s' = ((call d FgetUrl args s).1, s'))
    ∧ (∀ t, (getUrl t).2 = t)
    ∧ (∀ t1 t2, (getUrl t1).1 = (getUrl t2).1).
Proof.
  intros depth titles s s'. subst s'.
  destruct (createTodo_each_keeps depth titles s) as [Hg Hh].
  set (s' := createTodo_each depth titles s) in *.
  split; [done|]. split; [done|]. split; [|split; [|done]].
  - intros d. unfold getUrl_call, mbind, M_bind, resolve. rewrite Hg.
    destruct (globals s !! "getUrl") as [[|str|g|o]|]; try done.
    simpl. by apply call_completion.
  - intros d args. by destruct d.
Qed.

(** ** [createTodo] *)

(** C7: [reqListener] is declared nowhere in the program, so on every page
    whose global scope does not bind it, [createTodo] throws a
    [ReferenceError] for it, whatever the title.  The throw comes before
    [open] and [send]: nothing goes out to the network, and the request
    object just created is left unopened and unsent. *)
Theorem createTodo_reqListener_unbound depth title s :
  globals s !! "reqListener" = None →
  ("reqListener" ∉ declared foo_js)
  ∧ (call (S depth) FcreateTodo [title] s).1
    = Throw (ReferenceError "reqListener")
  ∧ network (call (S depth) FcreateTodo [title] s).2 = network s
  ∧ heap (call (S depth) FcreateTodo [title] s).2 = heap s ++ [fresh_xhr]
  ∧ opened fresh_xhr = None
  ∧ sent fresh_xhr = false.
Proof.
  intros Hl. split.
  { unfold declared. simpl. rewrite !not_elem_of_cons.
    repeat split; try done. apply not_elem_of_nil. }
  simpl. rewrite createTodo_unfold, Hl. done.
Qed.

Lemma createTodo_reqListener_unbound_witness :
  globals page !! "reqListener" = None
  ∧ (call 1 FcreateTodo [VString "milk"] page).1
    = Throw (ReferenceError "reqListener").
Proof.
  split; [reflexivity|].
  apply (createTodo_reqListener_unbound 0 (VString "milk") page).
  reflexivity.
Defined.




(** C6, as the claim states it, fails.  On the page that has loaded [foo.js]
    and nothing else the request is never opened; and once another script
    has re-assigned [getUrl], as [DRAFT.md] shows, the url no longer starts
    with ["/todos"]. *)
Lemma createTodo_url_counterexample :
  ¬ opens_todos 2 page "milk" ∧ ¬ opens_todos 2 page_reassigned "milk".
Proof.
  split; intros [req [Hreq Hopen]]; vm_compute in Hreq;
    injection Hreq as <-; discriminate Hopen.
Qed.

(** C6, amended: on a page that binds [reqListener] to a function and on
    which [getUrl] is still the function [foo.js] declares, [createTodo]
    opens its request, for every string title, with method ["POST"] and url
    [getUrl() + "?title=" + title], that is ["/todos?title="] followed by
    the title verbatim: the title is not encoded in any way. *)
Theorem createTodo_url depth title s l :
  globals s !! "reqListener" = Some (VFunc l) →
  globals s !! "getUrl" = Some (VFunc FgetUrl) →
  (getUrl_call (S depth) s).1 = Normal (VString "/todos")
  ∧ opens_todos (S (S depth)) s title
  ∧ network (call (S (S depth)) FcreateTodo [VString title] s).2
    = network s ++ [("POST", "/todos?title=" +:+ title)].
Proof.
  intros Hl Hg.
  assert (Hb : (getUrl_call (S depth) s).1 = Normal (VString "/todos")).
  { unfold getUrl_call. by erewrite bind_normal by (by apply resolve_bound). }
  split; [done|]. unfold opens_todos.
  rewrite (createTodo_runs _ _ _ _ _ Hl Hb). simpl. split; [|done].
  eexists. split; [apply lookup_last|done].
Qed.

Lemma createTodo_url_witness :
  globals page_with_listener !! "reqListener" = Some (VFunc (FArrow "done"))
  ∧ globals page_with_listener !! "getUrl" = Some (VFunc FgetUrl)
  ∧ network (call 2 FcreateTodo [VString "a&b#c d"] page_with_listener).2
    = [("POST", "/todos?title=a&b#c d")].
Proof.
  split; [reflexivity|]. split; [reflexivity|].
  apply (createTodo_url 0 "a&b#c d" page_with_listener (FArrow "done"));
    reflexivity.
Defined.

(** ** Every way a call of [createTodo] can go *)

(** Once [reqListener] resolved to something [addEventListener] accepts,
    the call goes on with the request object [listening] for it. *)
Lemma createTodo_listening callee title s l :
  globals s !! "reqListener" = Some l →
  (∀ str, l ≠ VString str) →
  createTodo callee title s =
  match globals s !! "getUrl" with
  | None =>
      (Throw (ReferenceError "getUrl"), set_heap (heap s ++ [listening l]) s)
  | Some f =>
      match invoke callee f [] (set_heap (heap s ++ [listening l]) s) with
      | (Normal base, s2) =>
          (open (VXhr (length (heap s))) "POST"
             (to_string base +:+ "?title=" +:+ to_string title);;
           send (VXhr (length (heap s)));;
           mret VUndefined) s2
      | (Throw e, s2) => (Throw e, s2)
      end
  end.
Proof.
  intros Hl Hstr. rewrite createTodo_unfold, Hl.
  destruct l as [|str|g|o]; try done. by destruct (Hstr str).
Qed.

(** A call that returns has run [open] and [send] on its own request
    object, right behind the objects that were there before. *)
Lemma createTodo_returns depth title s l base :
  globals s !! "reqListener" = Some l →
  (∀ str, l ≠ VString str) →
  (getUrl_call depth s).1 = Normal base →
  createTodo (call depth) title s
  = (Normal VUndefined,
     let url := to_string base +:+ "?title=" +:+ to_string title in
     {| globals := globals s;
        heap := heap s ++ [ {| listeners := listeners (listening l);
                               opened := Some ("POST", url);
                               sent := true |} ];
        network := network s ++ [("POST", url)] |}).
Proof.
  intros Hl Hstr Hb.
  destruct (getUrl_call_returns _ _ _ Hb) as (g & Hg & Hcall).
  rewrite (createTodo_listening _ _ _ _ Hl Hstr), Hg. simpl. rewrite Hcall.
  erewrite open_send by apply lookup_last.
  simpl. by rewrite insert_last.
Qed.

(** What a call that returns tells about the page it ran on. *)
Lemma createTodo_normal_inv depth title s v :
  (createTodo (call depth) title s).1 = Normal v →
  ∃ l base, globals s !! "reqListener" = Some l
            ∧ (∀ str, l ≠ VString str)
            ∧ (getUrl_call depth s).1 = Normal base.
Proof.
  intros H. rewrite createTodo_unfold in H.
  destruct (globals s !! "reqListener") as [l|] eqn:Hl; [|done].
  assert (Hstr : ∀ str, l ≠ VString str).
  { intros str ->. done. }
  exists l.
  assert (Hgo : ∀ y,
    (match globals s !! "getUrl" with
     | None => (Throw (ReferenceError "getUrl"), set_heap (heap s ++ [y]) s)
     | Some f =>
         match invoke (call depth) f [] (set_heap (heap s ++ [y]) s) with
         | (Normal base, s2) =>
             (open (VXhr (length (heap s))) "POST"
                (to_string base +:+ "?title=" +:+ to_string title);;
              send (VXhr (length (heap s)));;
              mret VUndefined) s2
         | (Throw e, s2) => (Throw e, s2)
         end
     end).1 = Normal v →
    ∃ base, (getUrl_call depth s).1 = Normal base).
  { intros y Hy. unfold getUrl_call.
    destruct (globals s !! "getUrl") as [f|] eqn:Hf; [|done].
    erewrite bind_normal by (by apply resolve_bound).
    destruct f as [|str|g|o]; try done. simpl in *.
    pose proof (call_completion depth g [] (set_heap (heap s ++ [y]) s) s
                  eq_refl) as Hc.
    destruct (call depth g [] (set_heap (heap s ++ [y]) s)) as [[b|e] s2];
      [|done].
    exists b. by rewrite <- Hc. }
  destruct l as [|str|g|o]; try (by destruct (Hstr str));
    destruct (Hgo _ H) as [base Hb]; eauto.
Qed.

(** A call that throws has sent nothing, however deep the calls nest. *)
Lemma call_throw_network depth f args s e :
  (call depth f args s).1 = Throw e →
  network (call depth f args s).2 = network s.
Proof.
  revert f args s e.
  induction depth as [|d IH]; intros f args s e H; [done|].
  destruct f; simpl in *; try done.
  rewrite createTodo_unfold in *.
  destruct (globals s !! "reqListener") as [l|]; [|done].
  assert (Hgo : ∀ y title,
    let r := match globals s !! "getUrl" with
      | None => (Throw (ReferenceError "getUrl"), set_heap (heap s ++ [y]) s)
      | Some f =>
          match invoke (call d) f [] (set_heap (heap s ++ [y]) s) with
          | (Normal base, s2) =>
              (open (VXhr (length (heap s))) "POST"
                 (to_string base +:+ "?title=" +:+ to_string title);;
               send (VXhr (length (heap s)));;
               mret VUndefined) s2
          | (Throw e, s2) => (Throw e, s2)
          end
      end in
    r.1 = Throw e → network r.2 = network s).
  { intros y title r. subst r.
    destruct (globals s !! "getUrl") as [f|]; [|done].
    destruct f as [|str|g|o]; try done. simpl.
    set (s1 := set_heap (heap s ++ [y]) s).
    pose proof (IH g [] s1) as IHg.
    destruct (call_keeps d g [] s1) as [_ Hp].
    destruct (call d g [] s1) as [[b|e'] s2]; simpl in *.
    - erewrite open_send by (by eapply prefix_snoc_lookup). done.
    - intros _. by eapply IHg. }
  destruct l; try (by apply Hgo). done.
Qed.


(** ** The first version of [createTodo], step by step *)

Lemma draft_createTodo_unfold title s :
  Draft.createTodo title s =
  match globals s !! "reqListener" with
  | None =>
      (Throw (ReferenceError "reqListener"),
       set_heap (heap s ++ [fresh_xhr]) s)
  | Some (VString _) => (Throw TypeError, set_heap (heap s ++ [fresh_xhr]) s)
  | Some l =>
      let s1 := set_heap (heap s ++ [listening l]) s in
      match globals s !! "url" with
      | None => (Throw (ReferenceError "url"), s1)
      | Some url =>
          (open (VXhr (length (heap s))) "POST"
             (to_string url +:+ "?title=" +:+ to_string title);;
           send (VXhr (length (heap s)));;
           mret VUndefined) s1
      end
  end.
Proof.
  unfold Draft.createTodo.
  erewrite bind_normal by reflexivity.
  destruct (globals s !! "reqListener") as [l|] eqn:Hl.
  2:{ erewrite bind_throw; [reflexivity|]. by apply resolve_unbound. }
  erewrite bind_normal by (by apply resolve_bound).
  assert (Hfresh : heap (set_heap (heap s ++ [fresh_xhr]) s)
                     !! length (heap s) = Some fresh_xhr)
    by apply lookup_last.
  assert (Hrest : ∀ s1 : state, globals s1 = globals s →
    (url ← resolve "url";
     open (VXhr (length (heap s))) "POST"
       (to_string url +:+ "?title=" +:+ to_string title);;
     send (VXhr (length (heap s)));;
     mret VUndefined) s1
    = match globals s !! "url" with
      | None => (Throw (ReferenceError "url"), s1)
      | Some url =>
          (open (VXhr (length (heap s))) "POST"
             (to_string url +:+ "?title=" +:+ to_string title);;
           send (VXhr (length (heap s)));;
           mret VUndefined) s1
      end).
  { intros s1 Hg. rewrite <- Hg.
    destruct (globals s1 !! "url") as [u|] eqn:Hu.
    - by erewrite bind_normal by (by apply resolve_bound).
    - erewrite bind_throw; [reflexivity|]. by apply resolve_unbound. }
  destruct l as [|str|g|o].
  - erewrite bind_normal.
    2:{ unfold addEventListener, with_xhr. by rewrite Hfresh. }
    by rewrite Hrest.
  - erewrite bind_throw; [reflexivity|].
    unfold addEventListener, with_xhr. by rewrite Hfresh.
  - erewrite bind_normal.
    2:{ eapply addEventListener_object;
          [exact Hfresh|left; by eexists|apply not_elem_of_nil]. }
    unfold set_heap at 1 3. simpl heap. rewrite insert_last.
    by rewrite Hrest.
  - erewrite bind_normal.
    2:{ eapply addEventListener_object;
          [exact Hfresh|right; by eexists|apply not_elem_of_nil]. }
    unfold set_heap at 1 3. simpl heap. rewrite insert_last.
    by rewrite Hrest.
Qed.

Lemma draft_createTodo_runs title s l url :
  globals s !! "reqListener" = Some (VFunc l) →
  globals s !! "url" = Some url →
  Draft.createTodo title s
  = (Normal VUndefined,
     let u := to_string url +:+ "?title=" +:+ to_string title in
     {| globals := globals s;
        heap := heap s ++ [ {| listeners := [("load", VFunc l)];
                               opened := Some ("POST", u);
                               sent := true |} ];
        network := network s ++ [("POST", u)] |}).
Proof.
  intros Hl Hu. rewrite draft_createTodo_unfold, Hl, Hu. simpl.
  erewrite open_send by apply lookup_last.
  simpl. by rewrite insert_last.
Qed.

(** ** All or nothing *)

(** X1: on a page that still has the [getUrl] of [foo.js], a call of
    [createTodo] that throws has sent nothing: whatever [reqListener] is
    bound to, with any arguments and at any stack depth, the network log
    after the call is the log before it. *)
Theorem createTodo_throw_sends_nothing depth args s e :
  globals s !! "getUrl" = Some (VFunc FgetUrl) →
  (call depth FcreateTodo args s).1 = Throw e →
  network (call depth FcreateTodo args s).2 = network s.
Proof. intros _. apply call_throw_network. Qed.

Lemma createTodo_throw_sends_nothing_witness :
  (call 2 FcreateTodo [VString "milk"]
     (load [VarDeclaration "reqListener" (VString "done")] page)).1
  = Throw TypeError
  ∧ network (call 2 FcreateTodo [VString "milk"]
               (load [VarDeclaration "reqListener" (VString "done")] page)).2
    = [].
Proof.
  split; [reflexivity|].
  apply (createTodo_throw_sends_nothing 2 [VString "milk"]
           (load [VarDeclaration "reqListener" (VString "done")] page)
           TypeError); reflexivity.
Defined.

(** X2: on a page that still has the [getUrl] of [foo.js], a call of
    [createTodo] that returns, whatever [reqListener] is bound to, returns
    [undefined] and has done exactly this: created one request object,
    opened it with method ["POST"] and the url ["/todos?title="] followed by
    the string conversion of its first argument, sent it, and so put exactly
    one request on the network. *)
Theorem createTodo_return_sends_one depth args s v :
  globals s !! "getUrl" = Some (VFunc FgetUrl) →
  (call depth FcreateTodo args s).1 = Normal v →
  v = VUndefined
  ∧ ∃ req,
      heap (call depth FcreateTodo args s).2 = heap s ++ [req]
      ∧ opened req = Some (todo_request (nth 0 args VUndefined))
      ∧ sent req = true
      ∧ network (call depth FcreateTodo args s).2
        = network s ++ [todo_request (nth 0 args VUndefined)].
Proof.
  intros Hg. destruct depth as [|d]; [done|]. simpl. intros H.
  destruct (createTodo_normal_inv _ _ _ _ H) as (l & base & Hl & Hstr & Hb).
  assert (base = VString "/todos") as ->.
  { unfold getUrl_call in Hb.
    erewrite bind_normal in Hb by (by apply resolve_bound).
    destruct d; simpl in Hb; [done|]. by inversion Hb. }
  rewrite (createTodo_returns _ _ _ _ _ Hl Hstr Hb) in *. simpl in *.
  split; [by inversion H|]. eexists. by repeat split.
Qed.

Lemma createTodo_return_sends_one_witness :
  (call 2 FcreateTodo [VString "milk"] page_with_listener).1
  = Normal VUndefined
  ∧ network (call 2 FcreateTodo [VString "milk"] page_with_listener).2
    = [("POST", "/todos?title=milk")].
Proof.
  split; [reflexivity|].
  destruct (createTodo_return_sends_one 2 [VString "milk"]
              page_with_listener VUndefined eq_refl eq_refl)
    as (_ & req & _ & _ & _ & Hn).
  exact Hn.
Defined.

(** X3: every call of [createTodo] leaves one new request object behind,
    also when it throws, and that object carries no listener other than the
    global [reqListener], registered for ["load"]: on no page does the call
    register an error listener. *)
Theorem createTodo_registers_load_only depth args s :
  ∃ req,
    heap (call (S depth) FcreateTodo args s).2 !! length (heap s) = Some req
    ∧ (listeners req = []
       ∨ ∃ l, globals s !! "reqListener" = Some l
              ∧ listeners req = [("load", l)]).
Proof. simpl. apply createTodo_request_object. Qed.

(** ** A missing or unusable [getUrl] *)



(** X5: on a page that binds [reqListener] to a function and [getUrl] to
    something that is not a function, [createTodo] throws a [TypeError] at
    the call [getUrl()] and sends nothing. *)
Theorem createTodo_getUrl_not_callable depth title s l v :
  globals s !! "reqListener" = Some (VFunc l) →
  globals s !! "getUrl" = Some v →
  (∀ g, v ≠ VFunc g) →
  (call (S depth) FcreateTodo [title] s).1 = Throw TypeError
  ∧ network (call (S depth) FcreateTodo [title] s).2 = network s.
Proof.
  intros Hl Hg Hv. simpl. rewrite createTodo_unfold, Hl, Hg.
  destruct v as [|str|g|o]; try done. by destruct (Hv g).
Qed.

Lemma createTodo_getUrl_not_callable_witness :
  (call 2 FcreateTodo [VString "milk"]
     (assign "getUrl" (VString "/todos") page_with_listener).2).1
  = Throw TypeError.
Proof.
  apply (createTodo_getUrl_not_callable 1 (VString "milk")
           (assign "getUrl" (VString "/todos") page_with_listener).2
           (FArrow "done") (VString "/todos"));
    [reflexivity|reflexivity|discriminate].
Defined.

(** ** Arguments and repeated calls *)

(** X6: on a page that binds [reqListener] to a function and still has the
    [getUrl] of [foo.js], a run of [createTodo] calls puts one request per
    title on the network, in the order of the calls, and creates one request
    object per call. *)
Theorem createTodo_each_log depth titles s l :
  globals s !! "reqListener" = Some (VFunc l) →
  globals s !! "getUrl" = Some (VFunc FgetUrl) →
  network (createTodo_each (S (S depth)) titles s)
  = network s ++ map todo_request titles
  ∧ length (heap (createTodo_each (S (S depth)) titles s))
    = length (heap s) + length titles.
Proof.
  revert s. induction titles as [|t ts IH]; intros s Hl Hg.
  { simpl. by rewrite app_nil_r, Nat.add_0_r. }
  assert (Hb : (getUrl_call (S depth) s).1 = Normal (VString "/todos")).
  { unfold getUrl_call. by erewrite bind_normal by (by apply resolve_bound). }
  change (createTodo_each (S (S depth)) (t :: ts) s)
    with (createTodo_each (S (S depth)) ts
            (call (S (S depth)) FcreateTodo [t] s).2).
  rewrite (createTodo_runs _ _ _ _ _ Hl Hb).
  match goal with |- context [createTodo_each _ _ ?s1] =>
    destruct (IH s1 Hl Hg) as [-> ->] end.
  simpl. rewrite <- app_assoc, length_app. simpl. split; [done|lia].
Qed.

Lemma createTodo_each_log_witness :
  network (createTodo_each 2 [VString "milk"; VString "eggs"]
             page_with_listener)
  = [("POST", "/todos?title=milk"); ("POST", "/todos?title=eggs")].
Proof.
  apply (createTodo_each_log 0 [VString "milk"; VString "eggs"]
           page_with_listener (FArrow "done")); reflexivity.
Defined.

(** X7: [createTodo] uses its first argument only and does not check it.
    On a page that binds [reqListener] to a function and still has the
    [getUrl] of [foo.js], the url is ["/todos?title="] followed by the
    string conversion of the first argument: further arguments are ignored,
    and a call without arguments posts to ["/todos?title=undefined"]. *)
Theorem createTodo_first_argument depth args s l :
  globals s !! "reqListener" = Some (VFunc l) →
  globals s !! "getUrl" = Some (VFunc FgetUrl) →
  network (call (S (S depth)) FcreateTodo args s).2
  = network s ++ [todo_request (nth 0 args VUndefined)].
Proof.
  intros Hl Hg.
  assert (Hb : (getUrl_call (S depth) s).1 = Normal (VString "/todos")).
  { unfold getUrl_call. by erewrite bind_normal by (by apply resolve_bound). }
  pose proof (createTodo_runs _ (nth 0 args VUndefined) _ _ _ Hl Hb) as Hr.
  simpl in Hr. simpl. by rewrite Hr.
Qed.

Lemma createTodo_first_argument_witness :
  network (call 2 FcreateTodo [] page_with_listener).2
  = [("POST", "/todos?title=undefined")]
  ∧ network (call 2 FcreateTodo [VString ""; VString "x"]
               page_with_listener).2
    = [("POST", "/todos?title=")].
Proof.
  split.
  - apply (createTodo_first_argument 0 [] page_with_listener (FArrow "done"));
      reflexivity.
  - apply (createTodo_first_argument 0 [VString ""; VString "x"]
             page_with_listener (FArrow "done")); reflexivity.
Defined.

(** X8: when [reqListener] is bound to [undefined], [createTodo] still
    opens and sends its request, with no listener on it at all: nothing on
    the page will learn of the response. *)
Theorem createTodo_listener_undefined depth title s :
  globals s !! "reqListener" = Some VUndefined →
  globals s !! "getUrl" = Some (VFunc FgetUrl) →
  call (S (S depth)) FcreateTodo [title] s
  = (Normal VUndefined,
     {| globals := globals s;
        heap := heap s ++ [ {| listeners := [];
                               opened := Some (todo_request title);
                               sent := true |} ];
        network := network s ++ [todo_request title] |}).
Proof.
  intros Hl Hg.
  assert (Hb : (getUrl_call (S depth) s).1 = Normal (VString "/todos")).
  { unfold getUrl_call. by erewrite bind_normal by (by apply resolve_bound). }
  simpl. by rewrite (createTodo_returns _ _ _ _ _ Hl ltac:(done) Hb).
Qed.

Lemma createTodo_listener_undefined_witness :
  (call 2 FcreateTodo [VString "milk"]
     (load [VarDeclaration "reqListener" VUndefined] page)).1
  = Normal VUndefined.
Proof.
  rewrite (createTodo_listener_undefined 0 (VString "milk")
             (load [VarDeclaration "reqListener" VUndefined] page));
    reflexivity.
Defined.

(** ** What the call depends on *)

(** X9: [createTodo] calls whatever [getUrl] is bound to when it runs.
    After an assignment [getUrl = () => body] like the one of [DRAFT.md],
    with [body] a plain path such as ['/oops'], on a page that binds
    [reqListener] to a function, the request goes to [body] followed by
    ["?title="] and the title. *)
Theorem createTodo_follows_getUrl depth title s l body :
  globals s !! "reqListener" = Some (VFunc l) →
  plain_path body = true →
  network (call (S (S depth)) FcreateTodo [title]
             (assign "getUrl" (VFunc (FArrow body)) s).2).2
  = network s ++ [("POST", body +:+ "?title=" +:+ to_string title)].
Proof.
  intros Hl _.
  set (s' := (assign "getUrl" (VFunc (FArrow body)) s).2).
  assert (Hl' : globals s' !! "reqListener" = Some (VFunc l)).
  { subst s'. simpl. by rewrite lookup_insert_ne. }
  assert (Hb : (getUrl_call (S depth) s').1 = Normal (VString body)).
  { unfold getUrl_call. erewrite bind_normal.
    2:{ apply resolve_bound. subst s'. simpl. apply lookup_insert_eq. }
    done. }
  by rewrite (createTodo_runs _ _ _ _ _ Hl' Hb).
Qed.

Lemma createTodo_follows_getUrl_witness :
  network (call 2 FcreateTodo [VString "milk"]
             (assign "getUrl" (VFunc (FArrow "/oops")) page_with_listener).2).2
  = [("POST", "/oops?title=milk")].
Proof.
  apply (createTodo_follows_getUrl 0 (VString "milk") page_with_listener
           (FArrow "done") "/oops"); reflexivity.
Defined.



(** ** The first version against [foo.js] *)

(** X11: replacing the variable [url] by the function [getUrl] changed
    nothing for a page that has both as the scripts declare them: for every
    title the first [createTodo] of [DRAFT.md] and the [createTodo] of
    [foo.js] complete alike and leave the same page behind. *)
Theorem draft_createTodo_refactored depth title s :
  globals s !! "url" = Some (VString "/todos") →
  globals s !! "getUrl" = Some (VFunc FgetUrl) →
  Draft.createTodo title s = call (S (S depth)) FcreateTodo [title] s.
Proof.
  intros Hu Hg. simpl.
  rewrite draft_createTodo_unfold, createTodo_unfold, Hu, Hg.
  by destruct (globals s !! "reqListener") as [[|str|g|o]|].
Qed.

Lemma draft_createTodo_refactored_witness :
  Draft.createTodo (VString "milk")
    (load Draft.url_declaration page_with_listener)
  = call 2 FcreateTodo [VString "milk"]
      (load Draft.url_declaration page_with_listener).
Proof.
  apply (draft_createTodo_refactored 0 (VString "milk")
           (load Draft.url_declaration page_with_listener)); reflexivity.
Defined.

(** X12: the first [createTodo] of [DRAFT.md] posts to whatever the global
    [url] holds when it runs: after an assignment [url = path], with [path]
    a plain path such as ["/oops"], on a page that binds [reqListener] to a
    function, the request goes to [path] followed by ["?title="] and the
    title. *)
Theorem draft_createTodo_follows_url title s l path :
  globals s !! "reqListener" = Some (VFunc l) →
  plain_path path = true →
  network (Draft.createTodo title (assign "url" (VString path) s).2).2
  = network s ++ [("POST", path +:+ "?title=" +:+ to_string title)].
Proof.
  intros Hl _.
  rewrite (draft_createTodo_runs title _ l (VString path)); [reflexivity| |].
  - simpl. rewrite lookup_insert_ne by done. exact Hl.
  - simpl. apply lookup_insert_eq.
Qed.

Lemma draft_createTodo_follows_url_witness :
  network (Draft.createTodo (VString "milk")
             (assign "url" (VString "/oops")
                (load Draft.url_declaration page_with_listener)).2).2
  = [("POST", "/oops?title=milk")].
Proof.
  apply (draft_createTodo_follows_url (VString "milk")
           (load Draft.url_declaration page_with_listener)
           (FArrow "done") "/oops"); reflexivity.
Defined.
